(** * A model of the raster/vector facade exercised by [intro_geoutils.py]

    The notebook [src/notebooks/intro_geoutils.py] only calls the
    operations of its raster and vector libraries ([gu.Raster],
    [Raster.reproject], [Raster.__sub__], [Raster.save],
    [Vector.create_mask], [xdem.terrain.slope], ...); none of their
    implementation is part of the repository.  The definitions below model
    the facade the specification describes (RasterDataset, VectorDataset,
    TerrainOps, GridAlgebra), with coordinates and samples as exact
    rationals and a raster's pixel buffer stored row-major, like the
    numpy masked array in [Raster.data] (a [mask] entry [true] marks a
    no-data sample, as in numpy). *)

From Stdlib Require Import String.
From Stdlib Require Import QArith Qround Qabs Qminmax Lqa List Arith Lia Bool NArith.
From Stdlib Require Import Permutation.
Import ListNotations.

Open Scope nat_scope.

(** ** Data model *)

(** Modelled from the spec: the errors of section 7 (I/O kind, shape/CRS
    mismatch, invalid reprojection parameters). *)
Inductive error : Type :=
| IOError
| GeometryError
| ShapeMismatchError.

Inductive result (A : Type) : Type :=
| Ok : A -> result A
| Err : error -> result A.
Arguments Ok {A} _.
Arguments Err {A} _.

(** Modelled from the spec: the georeferencing of a raster (section 3 and
    the notebook's notes on the [Raster] class): width and height in
    pixels, per-axis resolution, the upper-left origin of the affine
    transform and a CRS identifier (an EPSG code). *)
Record Grid : Type := mkGrid {
  width : nat;
  height : nat;
  res_x : Q;
  res_y : Q;
  origin_x : Q;
  origin_y : Q;
  crs : N
}.

(** Modelled from the spec: a RasterDataset: a grid, its samples row by
    row and the no-data mask. *)
Record Raster : Type := mkRaster {
  grid : Grid;
  data : list Q;
  mask : list bool
}.

(** Modelled from the spec: a boolean mask raster aligned on a grid (the
    result of rasterize / [create_mask]). *)
Record MaskRaster : Type := mkMaskRaster {
  mgrid : Grid;
  cells : list bool
}.

(** The sample count of a raster. *)
Definition sample_count (r : Raster) : nat := length (data r).

(** The shape invariant of section 3: [width * height == sample_count],
    the no-data mask having one entry per sample. *)
Definition wf_raster (r : Raster) : Prop :=
  sample_count r = height (grid r) * width (grid r) /\
  length (mask r) = height (grid r) * width (grid r).

Definition wf_rasterb (r : Raster) : bool :=
  (length (data r) =? height (grid r) * width (grid r)) &&
  (length (mask r) =? height (grid r) * width (grid r)).

Definition wf_mask (m : MaskRaster) : Prop :=
  length (cells m) = height (mgrid m) * width (mgrid m).

(** Bounds [(left, bottom, right, top)] of a grid, from its transform and
    size. *)
Definition bounds (g : Grid) : Q * Q * Q * Q :=
  (origin_x g,
   (origin_y g - inject_Z (Z.of_nat (height g)) * res_y g)%Q,
   (origin_x g + inject_Z (Z.of_nat (width g)) * res_x g)%Q,
   origin_y g).

(** A row-major grid of [h] rows of [w] cells, the cell of row [i] and
    column [j] being [f i j]. *)
Definition tabulate {A : Type} (h w : nat) (f : nat -> nat -> A) : list A :=
  flat_map (fun i => map (f i) (seq 0 w)) (seq 0 h).

(** Sample and no-data flag at row [i], column [j]; outside the buffer a
    pixel reads as masked. *)
Definition sample (r : Raster) (i j : nat) : Q :=
  nth (i * width (grid r) + j) (data r) 0%Q.

Definition masked (r : Raster) (i j : nat) : bool :=
  nth (i * width (grid r) + j) (mask r) true.

(** ** GridAlgebra *)

(** Modelled from the spec: operands of elementwise arithmetic are
    compatible when they have the same shape and the same CRS (4.1). *)
Definition compatible (a b : Raster) : bool :=
  (width (grid a) =? width (grid b)) && (height (grid a) =? height (grid b))
  && (crs (grid a) =? crs (grid b))%N.

(** Modelled from the spec: elementwise subtraction [a - b] (4.1, 4.4) on
    masked arrays: a pixel is no-data when it is no-data in either operand;
    incompatible operands fail with [ShapeMismatchError]. *)
Definition sub (a b : Raster) : result Raster :=
  if compatible a b then
    let g := grid a in
    Ok (mkRaster g
          (tabulate (height g) (width g)
             (fun i j => (sample a i j - sample b i j)%Q))
          (tabulate (height g) (width g)
             (fun i j => masked a i j || masked b i j)))
  else Err ShapeMismatchError.

(** The samples of [d] that are not no-data and are selected by the mask
    cells [c] ([ddem[glacier_mask]] in the notebook). *)
Fixpoint select (d : list Q) (m : list bool) (c : list bool) : list Q :=
  match d, m, c with
  | x :: d', b :: m', t :: c' =>
      if negb b && t then x :: select d' m' c' else select d' m' c'
  | _, _, _ => []
  end.

(** The samples of [d] that are not no-data. *)
Fixpoint valid_samples (d : list Q) (m : list bool) : list Q :=
  match d, m with
  | x :: d', b :: m' => if b then valid_samples d' m' else x :: valid_samples d' m'
  | _, _ => []
  end.

Definition Qsum (l : list Q) : Q := fold_right Qplus 0%Q l.

(** The mean of a list of samples; [None] for no sample. *)
Definition mean (l : list Q) : option Q :=
  match l with
  | [] => None
  | _ => Some (Qsum l / inject_Z (Z.of_nat (length l)))%Q
  end.

(** Modelled from the spec: the mean of the valid samples of a raster. *)
Definition raster_mean (r : Raster) : option Q :=
  mean (valid_samples (data r) (mask r)).

(** Modelled from the spec: the mean of a raster restricted to a boolean
    mask raster of identical shape (4.4); another shape is refused. *)
Definition masked_mean (r : Raster) (m : MaskRaster) : result (option Q) :=
  if (width (mgrid m) =? width (grid r)) && (height (mgrid m) =? height (grid r))
  then Ok (mean (select (data r) (mask r) (cells m)))
  else Err ShapeMismatchError.

(** The all-true mask on the grid of [r]. *)
Definition full_mask (r : Raster) : MaskRaster :=
  mkMaskRaster (grid r) (tabulate (height (grid r)) (width (grid r)) (fun _ _ => true)).

(** ** VectorDataset and rasterization *)

(** The box [(left, bottom, right, top)] covered by the pixel of row [i]
    and column [j] of a grid. *)
Definition pixel_box (g : Grid) (i j : nat) : Q * Q * Q * Q :=
  ((origin_x g + inject_Z (Z.of_nat j) * res_x g)%Q,
   (origin_y g - inject_Z (Z.of_nat (S i)) * res_y g)%Q,
   (origin_x g + inject_Z (Z.of_nat (S j)) * res_x g)%Q,
   (origin_y g - inject_Z (Z.of_nat i) * res_y g)%Q).

Section Rasterize.
(** The geometries of a vector dataset and the test whether one covers
    part of a box; both belong to the vector library. *)
Variable Geometry : Type.
Variable intersects : Geometry -> Q * Q * Q * Q -> bool.
(** The transform of a geometry from one CRS to another (the vector
    library's reprojection, VectorDataset.reproject in 4.2). *)
Variable to_crs : N -> N -> Geometry -> Geometry.

(** Modelled from the spec: a VectorDataset (section 3), an ordered
    collection of geometries with a shared CRS. *)
Record Vector : Type := mkVector {
  geoms : list Geometry;
  vcrs : N
}.

(** Modelled from the spec: rasterize / [create_mask] (4.2): a boolean
    mask on the grid of the reference raster, true where some geometry
    of the collection, brought from the vector's CRS to the raster's CRS,
    intersects the pixel. *)
Definition create_mask (v : Vector) (r : Raster) : MaskRaster :=
  let g := grid r in
  let gs := map (to_crs (vcrs v) (crs g)) (geoms v) in
  mkMaskRaster g
    (tabulate (height g) (width g)
       (fun i j => existsb (fun x => intersects x (pixel_box g i j)) gs)).
End Rasterize.

Arguments mkVector {Geometry} _ _.
Arguments geoms {Geometry} _.
Arguments vcrs {Geometry} _.

(** ** TerrainOps *)

Section Terrain.
(** The local formulas of the DEM library: each reads the 3x3 window
    around a pixel (offsets 0, 1, 2 for row and column) and gives the
    slope, the aspect, or the hillshade for a sun azimuth and altitude. *)
Variable slope_kernel : (nat -> nat -> Q) -> Q.
Variable aspect_kernel : (nat -> nat -> Q) -> Q.
Variable hillshade_kernel : Q -> Q -> (nat -> nat -> Q) -> Q.

(** The 3x3 window around pixel [(i, j)] lies inside the grid and holds
    no no-data sample. *)
Definition window_ok (r : Raster) (i j : nat) : bool :=
  let g := grid r in
  (1 <=? i) && (S i <? height g) && (1 <=? j) && (S j <? width g) &&
  forallb (fun a => forallb (fun b => negb (masked r (i - 1 + a) (j - 1 + b)))
                            [0; 1; 2]) [0; 1; 2].

(** Modelled from the spec: a derived raster computed pixel by pixel
    from the window around it, on the grid of the input; pixels whose
    window leaves the grid or meets no-data are no-data. *)
Definition focal (k : (nat -> nat -> Q) -> Q) (r : Raster) : Raster :=
  let g := grid r in
  mkRaster g
    (tabulate (height g) (width g)
       (fun i j => k (fun a b => sample r (i - 1 + a) (j - 1 + b))))
    (tabulate (height g) (width g) (fun i j => negb (window_ok r i j))).

(** Modelled from the spec: slope, aspect and hillshade (4.3). *)
Definition slope (r : Raster) : Raster := focal slope_kernel r.
Definition aspect (r : Raster) : Raster := focal aspect_kernel r.
Definition hillshade (azimuth altitude : Q) (r : Raster) : Raster :=
  focal (hillshade_kernel azimuth altitude) r.
End Terrain.

(** ** Reprojection *)

(** Modelled from the spec: the targets of reproject (4.1): a reference
    dataset, a resolution, bounds [(left, bottom, right, top)] or a CRS. *)
Inductive target : Type :=
| ToRef (r : Raster)
| ToRes (q : Q)
| ToBounds (left bottom right top : Q)
| ToCrs (c : N).

(** The number of pixels of size [res] covering an extent. *)
Definition npixels (extent res : Q) : nat := Z.to_nat (Qceiling (extent / res)).

Section Reproject.
(** The grid a CRS change leads to, and the resampling of a raster at a
    pixel of a new grid (value and no-data flag); both belong to the
    raster library. *)
Variable crs_grid : Grid -> N -> Grid.
Variable resample : Raster -> Grid -> nat -> nat -> Q * bool.

(** Modelled from the spec: the grid of the reprojected dataset; a
    non-positive resolution or empty bounds are contradictory inputs and
    fail with [GeometryError]. *)
Definition target_grid (d : Raster) (t : target) : result Grid :=
  let g := grid d in
  match t with
  | ToRef r => Ok (grid r)
  | ToRes q =>
      if Qle_bool q 0 then Err GeometryError
      else let '(l, b, rt, tp) := bounds g in
           Ok (mkGrid (npixels (rt - l) q) (npixels (tp - b) q) q q l tp (crs g))
  | ToBounds l b rt tp =>
      if Qle_bool rt l || Qle_bool tp b || Qle_bool (res_x g) 0
         || Qle_bool (res_y g) 0
      then Err GeometryError
      else Ok (mkGrid (npixels (rt - l) (res_x g)) (npixels (tp - b) (res_y g))
                      (res_x g) (res_y g) l tp (crs g))
  | ToCrs c => Ok (crs_grid g c)
  end.

(** Modelled from the spec: reproject (4.1), a new dataset resampled
    onto the target grid. *)
Definition reproject (d : Raster) (t : target) : result Raster :=
  match target_grid d t with
  | Ok g =>
      Ok (mkRaster g
            (tabulate (height g) (width g) (fun i j => fst (resample d g i j)))
            (tabulate (height g) (width g) (fun i j => snd (resample d g i j))))
  | Err e => Err e
  end.
End Reproject.

(** ** Loading *)

(** Modelled from the spec: load (4.1): the file system gives the decoded
    content of a path, if any; a missing file, or a content whose sample
    count does not match its grid, fails with [IOError]. *)
Definition load (fs : String.string -> option Raster) (p : String.string)
  : result Raster :=
  match fs p with
  | None => Err IOError
  | Some r => if wf_rasterb r then Ok r else Err IOError
  end.

(** Componentwise equality of two bounds. *)
Definition same_bounds (x y : Q * Q * Q * Q) : Prop :=
  let '(l1, b1, r1, t1) := x in
  let '(l2, b2, r2, t2) := y in
  (l1 == l2 /\ b1 == b2 /\ r1 == r2 /\ t1 == t2)%Q.

(** ** The notebook's own computations *)

(** The largest element of a list; [None] for the empty list (numpy's
    [max] of a fully masked array is the masked constant). *)
Fixpoint list_max (l : list Q) : option Q :=
  match l with
  | [] => None
  | x :: l' =>
      match list_max l' with
      | None => Some x
      | Some m => Some (Qmax x m)
      end
  end.

(** [vmax = np.max(np.abs(ddem.data))] (notebook, line 230): the largest
    absolute value of the valid samples; numpy's [abs] and [max] of a masked
    array skip the no-data entries.  The map is drawn with
    [vmin=-vmax, vmax=vmax]. *)
Definition abs_max (r : Raster) : option Q :=
  list_max (map Qabs (valid_samples (data r) (mask r))).

(** [~glacier_mask] (notebook, line 280): the complement of a boolean mask
    raster, on the same grid. *)
Definition mask_not (m : MaskRaster) : MaskRaster :=
  mkMaskRaster (mgrid m) (map negb (cells m)).

(** ** Lemmas on grids *)

Lemma length_rows {A : Type} (w : nat) (f : nat -> nat -> A) (l : list nat) :
  length (flat_map (fun i => map (f i) (seq 0 w)) l) = length l * w.
Proof.
  induction l as [|s l IH]; [reflexivity|].
  cbn [flat_map length]. rewrite length_app, length_map, length_seq, IH. lia.
Qed.

Lemma length_tabulate {A : Type} (h w : nat) (f : nat -> nat -> A) :
  length (tabulate h w f) = h * w.
Proof. unfold tabulate. rewrite length_rows, length_seq. reflexivity. Qed.

Lemma nth_error_tabulate_from {A : Type} (w : nat) (f : nat -> nat -> A) :
  forall h s i j, i < h -> j < w ->
  nth_error (flat_map (fun i => map (f i) (seq 0 w)) (seq s h)) (i * w + j)
  = Some (f (s + i) j).
Proof.
  induction h as [|h IH]; intros s i j Hi Hj; [lia|].
  cbn [seq flat_map].
  destruct i as [|i].
  - rewrite nth_error_app1 by (rewrite length_map, length_seq; lia).
    rewrite nth_error_map, nth_error_seq.
    cbn [Nat.mul Nat.add]. assert (Hjw : (j <? w) = true) by (apply Nat.ltb_lt; lia).
    rewrite Hjw. cbn. rewrite !Nat.add_0_r. reflexivity.
  - rewrite nth_error_app2 by (rewrite length_map, length_seq; lia).
    rewrite length_map, length_seq.
    replace (S i * w + j - w) with (i * w + j) by lia.
    rewrite IH by lia. f_equal. f_equal. lia.
Qed.

Lemma nth_error_tabulate {A : Type} (h w : nat) (f : nat -> nat -> A) i j :
  i < h -> j < w -> nth_error (tabulate h w f) (i * w + j) = Some (f i j).
Proof. intros. unfold tabulate. rewrite nth_error_tabulate_from; auto. Qed.

Lemma nth_tabulate {A : Type} (h w : nat) (f : nat -> nat -> A) d i j :
  i < h -> j < w -> nth (i * w + j) (tabulate h w f) d = f i j.
Proof.
  intros Hi Hj. apply nth_error_nth. apply nth_error_tabulate; assumption.
Qed.

Lemma in_tabulate {A : Type} (h w : nat) (f : nat -> nat -> A) x :
  In x (tabulate h w f) -> exists i j, i < h /\ j < w /\ x = f i j.
Proof.
  unfold tabulate. rewrite in_flat_map. intros [i [Hi Hx]].
  apply in_seq in Hi. apply in_map_iff in Hx. destruct Hx as [j [<- Hj]].
  apply in_seq in Hj. exists i, j. repeat split; lia.
Qed.

Lemma compatible_refl (d : Raster) : compatible d d = true.
Proof. unfold compatible. rewrite !Nat.eqb_refl, N.eqb_refl. reflexivity. Qed.

Lemma sub_ok_inv (a b d : Raster) :
  sub a b = Ok d ->
  compatible a b = true /\
  d = mkRaster (grid a)
        (tabulate (height (grid a)) (width (grid a))
           (fun i j => (sample a i j - sample b i j)%Q))
        (tabulate (height (grid a)) (width (grid a))
           (fun i j => masked a i j || masked b i j)).
Proof.
  unfold sub. destruct (compatible a b); intros H; [|discriminate].
  injection H as <-. split; reflexivity.
Qed.

Lemma select_all (d : list Q) (m c : list bool) :
  length d <= length c -> (forall t, In t c -> t = true) ->
  select d m c = valid_samples d m.
Proof.
  revert m c. induction d as [|x d IH]; intros m c Hl Hc; [reflexivity|].
  destruct c as [|t c]; [cbn in Hl; lia|].
  destruct m as [|b m]; [reflexivity|].
  cbn. rewrite (Hc t (or_introl eq_refl)), andb_true_r.
  rewrite IH; [| cbn in Hl; lia | intros u Hu; apply Hc; right; exact Hu].
  destruct b; reflexivity.
Qed.

Lemma wf_rasterb_spec (r : Raster) : wf_rasterb r = true <-> wf_raster r.
Proof.
  unfold wf_rasterb, wf_raster, sample_count. rewrite andb_true_iff, !Nat.eqb_eq.
  reflexivity.
Qed.

Lemma compatible_spec (a b : Raster) :
  compatible a b = true <->
  width (grid a) = width (grid b) /\ height (grid a) = height (grid b) /\
  crs (grid a) = crs (grid b).
Proof.
  unfold compatible. rewrite !andb_true_iff, !Nat.eqb_eq, N.eqb_eq. tauto.
Qed.

Lemma focal_wf (k : (nat -> nat -> Q) -> Q) (r : Raster) : wf_raster (focal k r).
Proof. unfold wf_raster, sample_count, focal. cbn. rewrite !length_tabulate. lia. Qed.

Lemma Q_of_nat_inj (m n : nat) :
  (inject_Z (Z.of_nat m) == inject_Z (Z.of_nat n))%Q -> m = n.
Proof. rewrite inject_Z_injective. lia. Qed.

Lemma Q_of_nat_nonzero (n : nat) : 0 < n -> ~ (inject_Z (Z.of_nat n) == 0)%Q.
Proof.
  intros Hn E. change 0%Q with (inject_Z 0) in E.
  rewrite inject_Z_injective in E. lia.
Qed.

Lemma sub_wf (a b d : Raster) : sub a b = Ok d -> wf_raster d.
Proof.
  intros H. apply sub_ok_inv in H. destruct H as [_ ->].
  unfold wf_raster, sample_count. cbn. rewrite !length_tabulate. lia.
Qed.

Lemma load_wf (fs : string -> option Raster) (p : string) (d : Raster) :
  load fs p = Ok d -> wf_raster d.
Proof.
  unfold load. destruct (fs p) as [r|]; [|discriminate].
  case_eq (wf_rasterb r); intros Hr H; [|discriminate].
  injection H as <-. apply wf_rasterb_spec. exact Hr.
Qed.

Lemma reproject_wf crs_grid resample (d : Raster) (t : target) (d' : Raster) :
  reproject crs_grid resample d t = Ok d' -> wf_raster d'.
Proof.
  unfold reproject. destruct (target_grid crs_grid d t) as [g|e]; [|discriminate].
  intros H. injection H as <-.
  unfold wf_raster, sample_count. cbn. rewrite !length_tabulate. lia.
Qed.

Lemma create_mask_wf (Geometry : Type) intersects to_crs (v : Vector Geometry) (r : Raster) :
  wf_mask (create_mask Geometry intersects to_crs v r).
Proof. unfold wf_mask, create_mask. cbn. apply length_tabulate. Qed.

(** Size, resolution and origin fix the bounds. *)
Lemma grid_bounds_fixed (g1 g2 : Grid) :
  width g1 = width g2 -> height g1 = height g2 ->
  (res_x g1 == res_x g2)%Q -> (res_y g1 == res_y g2)%Q ->
  (origin_x g1 == origin_x g2)%Q -> (origin_y g1 == origin_y g2)%Q ->
  same_bounds (bounds g1) (bounds g2).
Proof.
  intros Hw Hh Hrx Hry Hox Hoy. unfold same_bounds, bounds.
  rewrite Hw, Hh, Hrx, Hry, Hox, Hoy. repeat split; reflexivity.
Qed.

(** Size, resolution and bounds fix the origin. *)
Lemma grid_origin_fixed (g1 g2 : Grid) :
  same_bounds (bounds g1) (bounds g2) ->
  (origin_x g1 == origin_x g2)%Q /\ (origin_y g1 == origin_y g2)%Q.
Proof. unfold same_bounds, bounds. tauto. Qed.

(** Size, origin and bounds fix the resolution of a non-empty grid. *)
Lemma grid_res_fixed (g1 g2 : Grid) :
  width g1 = width g2 -> height g1 = height g2 ->
  0 < width g1 -> 0 < height g1 ->
  same_bounds (bounds g1) (bounds g2) ->
  (res_x g1 == res_x g2)%Q /\ (res_y g1 == res_y g2)%Q.
Proof.
  intros Hw Hh Pw Ph. unfold same_bounds, bounds.
  rewrite <- Hw, <- Hh. intros (Hl & Hb & Hr & Ht).
  pose proof (Q_of_nat_nonzero _ Pw) as Nw.
  pose proof (Q_of_nat_nonzero _ Ph) as Nh.
  set (W := inject_Z (Z.of_nat (width g1))) in *.
  set (H := inject_Z (Z.of_nat (height g1))) in *.
  split.
  - apply (Qmult_inj_r _ _ W); [exact Nw|].
    rewrite (Qmult_comm (res_x g1)), (Qmult_comm (res_x g2)).
    rewrite Hl in Hr. nra.
  - apply (Qmult_inj_r _ _ H); [exact Nh|].
    rewrite (Qmult_comm (res_y g1)), (Qmult_comm (res_y g2)).
    rewrite Ht in Hb. nra.
Qed.

(** Resolution, origin and bounds fix the size when the resolution is
    positive. *)
Lemma grid_size_fixed (g1 g2 : Grid) :
  (res_x g1 == res_x g2)%Q -> (res_y g1 == res_y g2)%Q ->
  (0 < res_x g1)%Q -> (0 < res_y g1)%Q ->
  same_bounds (bounds g1) (bounds g2) ->
  width g1 = width g2 /\ height g1 = height g2.
Proof.
  intros Hrx Hry Px Py. unfold same_bounds, bounds.
  intros (Hl & Hb & Hr & Ht).
  rewrite <- Hrx, <- Hl in Hr. rewrite <- Hry, <- Ht in Hb.
  split; apply Q_of_nat_inj.
  - apply (Qmult_inj_r _ _ (res_x g1)); [intros E; rewrite E in Px; discriminate|].
    nra.
  - apply (Qmult_inj_r _ _ (res_y g1)); [intros E; rewrite E in Py; discriminate|].
    nra.
Qed.

(** ** Concrete datasets *)

(** A 1 x 2 grid of 1 m pixels in UTM zone 33N (EPSG 32633). *)
Definition ex_grid : Grid := mkGrid 2 1 1 1 0 2 32633%N.

(** A DEM whose second pixel is no-data, and a DEM with no no-data. *)
Definition ex_dem_a : Raster := mkRaster ex_grid [3; 5]%Q [false; true].
Definition ex_dem_b : Raster := mkRaster ex_grid [1; 7]%Q [false; false].

(** The same shape in another CRS (WGS 84, EPSG 4326). *)
Definition ex_dem_wgs84 : Raster :=
  mkRaster (mkGrid 2 1 1 1 0 2 4326%N) [1; 7]%Q [false; false].

Definition ex_diff : Raster :=
  match sub ex_dem_a ex_dem_b with Ok d => d | Err _ => ex_dem_a end.

Example ex_sub_values :
  data ex_diff = [3 - 1; 5 - 7]%Q /\ mask ex_diff = [false; true].
Proof. split; reflexivity. Qed.

Example ex_sub_mismatch : sub ex_dem_a ex_dem_wgs84 = Err ShapeMismatchError.
Proof. reflexivity. Qed.

Example ex_masked_mean :
  masked_mean ex_dem_b (full_mask ex_dem_b) = Ok (Some (8 # 2)%Q).
Proof. reflexivity. Qed.

(** Axis-aligned boxes [(left, bottom, right, top)] as geometries, with
    the overlap test of their interiors. *)
Definition box_overlap (x y : Q * Q * Q * Q) : bool :=
  let '(l1, b1, r1, t1) := x in
  let '(l2, b2, r2, t2) := y in
  negb (Qle_bool r2 l1) && negb (Qle_bool r1 l2) &&
  negb (Qle_bool t2 b1) && negb (Qle_bool t1 b2).

(** The boxes of the examples are given in the raster's CRS, where the
    transform to that CRS leaves them as they are. *)
Definition same_crs (src dst : N) (x : Q * Q * Q * Q) : Q * Q * Q * Q := x.

(** A glacier outline covering part of the first pixel only. *)
Definition ex_outlines : Vector (Q * Q * Q * Q) :=
  mkVector [((1 # 5), (6 # 5), (4 # 5), (9 # 5))]%Q 32633%N.

Example ex_create_mask :
  cells (create_mask _ box_overlap same_crs ex_outlines ex_diff) = [true; false].
Proof. reflexivity. Qed.

(** A transform that moves boxes one unit east when the CRS changes, and
    the same outline tagged with another CRS: it is moved onto the second
    pixel before the test. *)
Definition ex_shift_crs (src dst : N) (x : Q * Q * Q * Q) : Q * Q * Q * Q :=
  if (src =? dst)%N then x
  else let '(l, b, r, t) := x in ((l + 1)%Q, b, (r + 1)%Q, t).

Example ex_create_mask_other_crs :
  cells (create_mask _ box_overlap ex_shift_crs
           (mkVector (geoms ex_outlines) 4326%N) ex_diff) = [false; true].
Proof. reflexivity. Qed.

Example ex_create_mask_empty :
  cells (create_mask _ box_overlap same_crs (mkVector [] 32633%N) ex_diff) = [false; false].
Proof. reflexivity. Qed.

(** ** Claims on GridAlgebra *)

(** C1: the difference of a dataset with itself succeeds, and every valid
    sample of the difference is zero. *)
Theorem sub_self_zero (d : Raster) :
  exists z, sub d d = Ok z /\
  forall k x, nth_error (mask z) k = Some false ->
              nth_error (data z) k = Some x -> (x == 0)%Q.
Proof.
  unfold sub. rewrite compatible_refl.
  eexists. split; [reflexivity|].
  intros k x _ Hx. cbn in Hx. apply nth_error_In, in_tabulate in Hx.
  destruct Hx as (i & j & _ & _ & ->).
  unfold Qminus. apply Qplus_opp_r.
Qed.

(** C10: in [a - b] a pixel is no-data exactly when it is no-data in [a] or
    in [b], and a valid pixel carries [a]'s sample minus [b]'s sample. *)
Theorem sub_mask_and_values (a b d : Raster) (H : sub a b = Ok d) :
  grid d = grid a /\
  forall i j, i < height (grid a) -> j < width (grid a) ->
    masked d i j = masked a i j || masked b i j /\
    (masked d i j = false -> sample d i j = (sample a i j - sample b i j)%Q).
Proof.
  apply sub_ok_inv in H. destruct H as [_ ->].
  split; [reflexivity|]. intros i j Hi Hj.
  unfold masked at 1, sample at 1. cbn.
  rewrite !nth_tabulate by assumption.
  split; [reflexivity | intros _; reflexivity].
Qed.

Lemma sub_mask_and_values_witness :
  sub ex_dem_a ex_dem_b = Ok ex_diff /\
  (grid ex_diff = grid ex_dem_a /\
   forall i j, i < height (grid ex_dem_a) -> j < width (grid ex_dem_a) ->
     masked ex_diff i j = masked ex_dem_a i j || masked ex_dem_b i j /\
     (masked ex_diff i j = false ->
      sample ex_diff i j = (sample ex_dem_a i j - sample ex_dem_b i j)%Q)).
Proof.
  split; [reflexivity|].
  apply (sub_mask_and_values ex_dem_a ex_dem_b ex_diff). reflexivity.
Defined.

(** C5: [a - b] succeeds with a new dataset exactly when [a] and [b] have
    the same shape and the same CRS, and fails with [ShapeMismatchError]
    otherwise. *)
Theorem sub_ok_iff_compatible (a b : Raster) :
  ((exists d, sub a b = Ok d) <->
   width (grid a) = width (grid b) /\ height (grid a) = height (grid b) /\
   crs (grid a) = crs (grid b)) /\
  (sub a b = Err ShapeMismatchError <->
   ~ (width (grid a) = width (grid b) /\ height (grid a) = height (grid b) /\
      crs (grid a) = crs (grid b))).
Proof.
  rewrite <- compatible_spec. unfold sub.
  destruct (compatible a b); split; split.
  - intros _. reflexivity.
  - intros _. eexists. reflexivity.
  - discriminate.
  - intros Hn. exfalso. apply Hn. reflexivity.
  - intros [d Hd]. discriminate.
  - discriminate.
  - intros _. discriminate.
  - intros _. reflexivity.
Qed.

(** C3: the masked mean over the all-true mask of a dataset's shape is the
    mean of its valid samples. *)
Theorem masked_mean_full_mask (r : Raster) (H : wf_raster r) :
  masked_mean r (full_mask r) = Ok (raster_mean r).
Proof.
  unfold masked_mean, full_mask. cbn [mgrid cells].
  rewrite !Nat.eqb_refl. cbn [andb]. unfold raster_mean. f_equal. f_equal.
  apply select_all.
  - rewrite length_tabulate. destruct H as [Hd _]. unfold sample_count in Hd. lia.
  - intros t Ht. apply in_tabulate in Ht. destruct Ht as (i & j & _ & _ & ->).
    reflexivity.
Qed.

Lemma masked_mean_full_mask_witness :
  wf_raster ex_dem_a /\
  masked_mean ex_dem_a (full_mask ex_dem_a) = Ok (raster_mean ex_dem_a).
Proof.
  assert (Hw : wf_raster ex_dem_a) by (split; reflexivity).
  split; [exact Hw | apply (masked_mean_full_mask ex_dem_a Hw)].
Defined.

(** ** Claims on rasterization *)

(** C7: rasterizing an empty geometry collection gives a mask of the
    reference raster's shape whose every pixel is false. *)
Theorem create_mask_empty (Geometry : Type)
  (intersects : Geometry -> Q * Q * Q * Q -> bool)
  (to_crs : N -> N -> Geometry -> Geometry) (c : N) (r : Raster) :
  let m := create_mask Geometry intersects to_crs (mkVector [] c) r in
  width (mgrid m) = width (grid r) /\ height (mgrid m) = height (grid r) /\
  wf_mask m /\ forall b, In b (cells m) -> b = false.
Proof.
  intros m. split; [reflexivity|]. split; [reflexivity|].
  split; [apply create_mask_wf|].
  intros b Hb. subst m. unfold create_mask in Hb. cbn [cells] in Hb.
  apply in_tabulate in Hb. destruct Hb as (i & j & _ & _ & ->). reflexivity.
Qed.

(** ** Claim on the shape invariant *)

(** C8: every dataset that load, reproject, subtraction, slope, aspect,
    hillshade or rasterize produces has one sample (and one mask entry)
    per pixel, [width * height == sample_count]; and of size, resolution,
    bounds and origin, any three fix the fourth (for a non-empty grid with
    a positive resolution). *)
Theorem produced_rasters_wf_and_grid_determined :
  (forall fs p d, load fs p = Ok d -> wf_raster d) /\
  (forall crs_grid resample d t d',
     reproject crs_grid resample d t = Ok d' -> wf_raster d') /\
  (forall a b d, sub a b = Ok d -> wf_raster d) /\
  (forall ks ka kh az alt d,
     wf_raster (slope ks d) /\ wf_raster (aspect ka d) /\
     wf_raster (hillshade kh az alt d)) /\
  (forall Geometry intersects to_crs v r, wf_mask (create_mask Geometry intersects to_crs v r)) /\
  (forall g1 g2 : Grid,
     (width g1 = width g2 -> height g1 = height g2 ->
      (res_x g1 == res_x g2)%Q -> (res_y g1 == res_y g2)%Q ->
      (origin_x g1 == origin_x g2)%Q -> (origin_y g1 == origin_y g2)%Q ->
      same_bounds (bounds g1) (bounds g2)) /\
     (same_bounds (bounds g1) (bounds g2) ->
      (origin_x g1 == origin_x g2)%Q /\ (origin_y g1 == origin_y g2)%Q) /\
     (width g1 = width g2 -> height g1 = height g2 ->
      0 < width g1 -> 0 < height g1 ->
      same_bounds (bounds g1) (bounds g2) ->
      (res_x g1 == res_x g2)%Q /\ (res_y g1 == res_y g2)%Q) /\
     ((res_x g1 == res_x g2)%Q -> (res_y g1 == res_y g2)%Q ->
      (0 < res_x g1)%Q -> (0 < res_y g1)%Q ->
      same_bounds (bounds g1) (bounds g2) ->
      width g1 = width g2 /\ height g1 = height g2)).
Proof.
  split; [exact load_wf|]. split; [exact reproject_wf|].
  split; [exact sub_wf|].
  split; [intros; repeat split; apply focal_wf|].
  split; [exact create_mask_wf|].
  intros g1 g2. split; [apply grid_bounds_fixed|]. split; [apply grid_origin_fixed|].
  split; [apply grid_res_fixed | apply grid_size_fixed].
Qed.

(** ** The notebook's pipeline and statistics *)

Lemma list_max_spec (l : list Q) (v : Q) :
  list_max l = Some v ->
  (forall x, In x l -> (x <= v)%Q) /\ exists x, In x l /\ (x == v)%Q.
Proof.
  revert v. induction l as [|y l IH]; intros v H; [discriminate|].
  cbn in H. destruct (list_max l) as [m|] eqn:Hm.
  - injection H as <-. destruct (IH m eq_refl) as [Hle [z [Hz Hzm]]].
    split.
    + intros x [<- | Hx]; [apply Q.le_max_l|].
      apply Qle_trans with m; [apply Hle, Hx | apply Q.le_max_r].
    + destruct (Q.max_spec_le y m) as [[_ E] | [_ E]].
      * exists z. split; [right; exact Hz|].
        apply Qeq_trans with m; [exact Hzm | apply Qeq_sym, E].
      * exists y. split; [left; reflexivity | apply Qeq_sym, E].
  - injection H as <-. destruct l as [|z l]; [|cbn in Hm; destruct (list_max l); discriminate].
    split.
    + intros x [<- | []]. apply Qle_refl.
    + exists y. split; [left; reflexivity | reflexivity].
Qed.

Lemma select_complement (d : list Q) (m c : list bool) :
  length d <= length c ->
  Permutation (select d m c ++ select d m (map negb c)) (valid_samples d m).
Proof.
  revert m c. induction d as [|x d IH]; intros m c Hl; [reflexivity|].
  destruct c as [|t c]; [cbn in Hl; lia|].
  destruct m as [|b m]; [reflexivity|].
  cbn in Hl. assert (Hl' : length d <= length c) by lia.
  cbn. destruct b; cbn.
  - apply IH, Hl'.
  - destruct t; cbn.
    + apply perm_skip, IH, Hl'.
    + apply Permutation_sym, Permutation_cons_app, Permutation_sym, IH, Hl'.
Qed.

(** The colour scale [vmin=-vmax, vmax=vmax] of the elevation-change map
    is centred on 0 and holds every valid sample of the raster, and [vmax]
    is the absolute value of one of them. *)
Theorem colour_scale_covers (r : Raster) (v : Q) (H : abs_max r = Some v) :
  (0 <= v)%Q /\
  (forall x, In x (valid_samples (data r) (mask r)) -> (- v <= x <= v)%Q) /\
  exists x, In x (valid_samples (data r) (mask r)) /\ (Qabs x == v)%Q.
Proof.
  unfold abs_max in H. apply list_max_spec in H. destruct H as [Hle [y [Hy Hyv]]].
  apply in_map_iff in Hy. destruct Hy as [x [<- Hx]].
  split; [|split].
  - rewrite <- Hyv. apply Qabs_nonneg.
  - intros z Hz. apply Qabs_Qle_condition, Hle, in_map, Hz.
  - exists x. split; assumption.
Qed.

Lemma colour_scale_covers_witness :
  abs_max ex_diff = Some 2%Q /\
  ((0 <= 2)%Q /\
   (forall x, In x (valid_samples (data ex_diff) (mask ex_diff)) -> (- 2 <= x <= 2)%Q) /\
   exists x, In x (valid_samples (data ex_diff) (mask ex_diff)) /\ (Qabs x == 2)%Q).
Proof.
  assert (H : abs_max ex_diff = Some 2%Q) by reflexivity.
  split; [exact H | apply (colour_scale_covers ex_diff 2%Q H)].
Defined.

(** On a well-formed raster, the samples selected by a rasterized mask
    and those selected by its complement are, together, exactly the valid
    samples of the raster: every valid sample is counted once, on or off
    the geometries. *)
Theorem zonal_partition (Geometry : Type)
  (intersects : Geometry -> Q * Q * Q * Q -> bool)
  (to_crs : N -> N -> Geometry -> Geometry) (v : Vector Geometry) (r : Raster)
  (H : wf_raster r) :
  let m := create_mask Geometry intersects to_crs v r in
  Permutation (select (data r) (mask r) (cells m) ++
               select (data r) (mask r) (cells (mask_not m)))
              (valid_samples (data r) (mask r)).
Proof.
  intros m. apply select_complement.
  subst m. unfold create_mask. cbn [cells]. rewrite length_tabulate.
  destruct H as [Hd _]. unfold sample_count in Hd. lia.
Qed.

Lemma zonal_partition_witness :
  wf_raster ex_diff /\
  Permutation
    (select (data ex_diff) (mask ex_diff)
       (cells (create_mask _ box_overlap same_crs ex_outlines ex_diff)) ++
     select (data ex_diff) (mask ex_diff)
       (cells (mask_not (create_mask _ box_overlap same_crs ex_outlines ex_diff))))
    (valid_samples (data ex_diff) (mask ex_diff)).
Proof.
  assert (Hw : wf_raster ex_diff) by (split; reflexivity).
  split; [exact Hw | apply (zonal_partition _ box_overlap same_crs ex_outlines ex_diff Hw)].
Defined.

(** [vmax] is undefined exactly when the raster has no valid sample. *)
Theorem abs_max_none_iff (r : Raster) :
  abs_max r = None <-> valid_samples (data r) (mask r) = [].
Proof.
  unfold abs_max. destruct (valid_samples (data r) (mask r)) as [|x l].
  - split; reflexivity.
  - split; [|discriminate]. cbn. destruct (list_max (map Qabs l)); discriminate.
Qed.
